(** * PDR execution dashboards: the filter-and-aggregate pipeline

    A shallow embedding of [dashboard.py] and [dashboard2.py].  Both scripts
    load one semicolon-delimited table with pandas, keep the rows whose
    province and sector were ticked in the sidebar, and derive the figures
    shown on the page from the rows kept.

    pandas objects are modelled by what the scripts observe of them:
    - a [DataFrame] is the list of its rows in display order, each with the
      index label pandas carries along ([read_csv] numbers them 0, 1, 2, ...);
    - a column of dtype int64 holds [Z] values and its [sum] wraps at 64 bits;
    - a float64 result is [NaN] or the rational it stands for (rounding is
      not modelled);
    - an exception is a value of [exn]; code that can raise lives in [py];
    - the text of the file and of the export is handled in module [Csv],
      where a frame is made of typed cells, since [read_csv] chooses the
      type of a column from the text it finds. *)

From Stdlib Require Import ZArith QArith Qround Lia Lqa Ascii.
From Stdlib Require DecimalString DecimalZ DecimalPos DecimalFacts.
From stdpp Require Import base decidable numbers list strings gmap sorting pretty.

Local Open Scope string_scope.
Local Open Scope Z_scope.

#[local] Set Warnings "-clear-no-such-hyp".

(** ** Exceptions *)

Module Py.

Inductive exn : Type :=
| FileNotFoundError
| OtherError (kind : string).

#[global] Instance exn_eq_dec : EqDecision exn.
Proof. solve_decision. Defined.

Inductive py (A : Type) : Type :=
| Return (a : A)
| Raise (e : exn).
Arguments Return {A} a.
Arguments Raise {A} e.

#[global] Instance py_ret : MRet py := λ A a, Return a.

#[global] Instance py_bind : MBind py := λ A B k m,
  match m with
  | Return a => k a
  | Raise e => Raise e
  end.

#[global] Instance py_fmap : FMap py := λ A B f m,
  match m with
  | Return a => Return (f a)
  | Raise e => Raise e
  end.

(** [try: body except FileNotFoundError: handler] *)
Definition try_except_not_found {A} (body : py A) (handler : py A) : py A :=
  match body with
  | Raise FileNotFoundError => handler
  | other => other
  end.

End Py.
Import Py.

(** ** Data model *)

(** A float64 value as the scripts can observe it. *)
Inductive pyfloat : Type :=
| NaN
| Fin (q : Q).

(** One record of [PDR_Marrakech_Safi_Projects.csv].  [lat] and [lon] are
    the two columns [dashboard.py] adds after loading; [dashboard2.py] has
    none. *)
Record Row : Type := mkRow {
  Province : string;
  Secteur : string;
  Intitule_Projet : string;
  Budget_DH : Z;
  Statut : string;
  Taux_Avancement : Z;
  lat : option Q;
  lon : option Q
}.

#[global] Instance Q_eq_dec : EqDecision Q.
Proof. solve_decision. Defined.

#[global] Instance Row_eq_dec : EqDecision Row.
Proof. solve_decision. Defined.

(** A frame row: the index label and the record. *)
Abbreviation IndexedRow := (nat * Row)%type.

Abbreviation DataFrame := (list IndexedRow).

(** The frame [read_csv] builds from the records of the file: a RangeIndex
    0 .. n-1 in file order. *)
Definition frame_of_records (rs : list Row) : DataFrame :=
  imap (λ i r, (i, r)) rs.

Definition index (df : DataFrame) : list nat := df.*1.

(** [df[name]]: one column, in row order. *)
Definition column {A} (f : Row → A) (df : DataFrame) : list A :=
  (λ x : IndexedRow, f x.2) <$> df.

(** ** Sidebar options: [Series.unique()] *)

(** pandas walks the column once with a hash table of the values seen so
    far and appends a value the first time it meets it. *)
Fixpoint unique_from (seen : gset string) (l : list string) : list string :=
  match l with
  | [] => []
  | x :: l' =>
      if decide (x ∈ seen) then unique_from seen l'
      else x :: unique_from ({[x]} ∪ seen) l'
  end.

Definition unique (l : list string) : list string := unique_from ∅ l.

(** ** Filter engine *)

(** [Series.isin(values)] for one cell. *)
Definition isin (x : string) (values : list string) : Prop := x ∈ values.

(** The mask of [df_filtered]:
    [df["Province"].isin(selected_province) & df["Secteur"].isin(selected_sector)]. *)
Definition selected (selected_province selected_sector : list string)
    (x : IndexedRow) : Prop :=
  isin (Province x.2) selected_province ∧ isin (Secteur x.2) selected_sector.

#[global] Instance selected_dec P S x : Decision (selected P S x).
Proof. unfold selected, isin. apply _. Defined.

(** [df[mask]]: boolean indexing keeps the rows whose mask is true, in
    order, with their index labels. *)
Definition df_filtered (df : DataFrame)
    (selected_province selected_sector : list string) : DataFrame :=
  filter (selected selected_province selected_sector) df.

(** ** Library behaviour taken as given

    Some library calls return values the scripts do not determine:
    [DataFrame.sort_values] with pandas' default [kind="quicksort"], which
    pandas documents as not stable; the doubles numpy's generator yields
    after [np.random.seed(42)]; and the decimal text of a float64, as
    [to_csv] writes it and [read_csv] reads it.  They are fields of an
    environment; what pandas and numpy promise about the first two is
    [LibraryOk]. *)

Record Library : Type := mkLibrary {
  (** [df.sort_values(col, ascending=False)] *)
  sort_values_desc : (Row → Z) → DataFrame → DataFrame;
  (** the [k]-th value of [random_sample()] after [np.random.seed(42)] *)
  random_sample : nat → Q;
  (** the text [to_csv] writes for a float64 *)
  float_repr : Q → string;
  (** the float64 [read_csv] makes of a numeric field *)
  float_parse : string → Q
}.

(** [x] may stand before [y] in a frame sorted by [key], largest first. *)
Definition by_key_desc (key : Row → Z) (x y : IndexedRow) : Prop :=
  key y.2 ≤ key x.2.

#[global] Instance by_key_desc_dec key x y : Decision (by_key_desc key x y).
Proof. unfold by_key_desc. apply _. Defined.

Record LibraryOk (L : Library) : Prop := mkLibraryOk {
  sort_values_perm : ∀ key df, sort_values_desc L key df ≡ₚ df;
  sort_values_sorted : ∀ key df,
    Sorted (by_key_desc key) (sort_values_desc L key df);
  random_sample_range : ∀ k, (0 <= random_sample L k)%Q ∧ (random_sample L k < 1)%Q
}.

(** ** Aggregator *)

(** Two's-complement wrap-around of an int64 accumulator. *)
Definition int64_wrap (z : Z) : Z := (z + 2 ^ 63) `mod` 2 ^ 64 - 2 ^ 63.

Definition int64_range (z : Z) : Prop := - 2 ^ 63 ≤ z < 2 ^ 63.

(** [Series.sum()] of an int64 column: numpy adds in int64. *)
Definition series_sum (l : list Z) : Z :=
  foldl (λ acc x, int64_wrap (acc + x)) 0 l.

(** The sum without the 64-bit limit, for the statements. *)
Definition exact_sum (l : list Z) : Z := foldr Z.add 0 l.

(** [Series.mean()] of an int64 column (pandas [nanmean]): the sum is taken
    in float64 and divided by the count, and the result is [nan] when the
    count is zero. *)
Definition series_mean (l : list Z) : pyfloat :=
  match l with
  | [] => NaN
  | _ => Fin (inject_Z (exact_sum l) / inject_Z (Z.of_nat (length l)))
  end.

(** [total_budget = df_filtered["Budget_DH"].sum()] *)
Definition total_budget (sub : DataFrame) : Z := series_sum (column Budget_DH sub).

(** [total_projects = len(df_filtered)] *)
Definition total_projects (sub : DataFrame) : nat := length sub.

(** [avg_progress = df_filtered["Taux_Avancement"].mean()] *)
Definition avg_progress (sub : DataFrame) : pyfloat :=
  series_mean (column Taux_Avancement sub).

(** [len(df_filtered[df_filtered["Statut"] == "En Retard"])] *)
Definition late_projects (sub : DataFrame) : nat :=
  length (filter (λ x : IndexedRow, Statut x.2 = "En Retard") sub).

(** [df_filtered.groupby("Province")["Budget_DH"].sum()]: one int64 sum per
    province met. *)
Definition budget_by_province (sub : DataFrame) : gmap string Z :=
  foldl (λ (m : gmap string Z) (x : IndexedRow),
           <[Province x.2 := int64_wrap (default 0 (m !! Province x.2) + Budget_DH x.2)]> m)
        ∅ sub.

(** The slices of [px.pie(df_filtered, names="Statut")]: rows per status. *)
Definition status_distribution (sub : DataFrame) : gmap string nat :=
  foldl (λ (m : gmap string nat) (x : IndexedRow),
           <[Statut x.2 := S (default 0%nat (m !! Statut x.2))]> m)
        ∅ sub.

(** The mask of the alert list:
    [Statut.isin(["Suspendu", "En Retard"]) & (Budget_DH > 5000000)]. *)
Definition is_critical (x : IndexedRow) : Prop :=
  isin (Statut x.2) ["Suspendu"; "En Retard"] ∧ 5000000 < Budget_DH x.2.

#[global] Instance is_critical_dec x : Decision (is_critical x).
Proof. unfold is_critical, isin. apply _. Defined.

(** [df_filtered[mask].sort_values("Budget_DH", ascending=False).head(5)] *)
Definition critical_projects (L : Library) (sub : DataFrame) : DataFrame :=
  take 5 (sort_values_desc L Budget_DH (filter is_critical sub)).

(** ** Formatting of the metric cards *)

(** Round to the nearest integer, ties to even. *)
Definition round_half_even (q : Q) : Z :=
  let f := Qfloor q in
  match ((q - inject_Z f) ?= 1 # 2)%Q with
  | Lt => f
  | Gt => f + 1
  | Eq => if Z.even f then f else f + 1
  end.

Definition sign_prefix (q : Q) : string :=
  if decide (Qnum q < 0) then "-" else "".

(** [f"{x:.1f}"] *)
Definition format_1f (x : pyfloat) : string :=
  match x with
  | NaN => "nan"
  | Fin q =>
      let t := Z.abs (round_half_even (q * (10 # 1))) in
      sign_prefix q +:+ pretty (t `div` 10) +:+ "." +:+ pretty (t `mod` 10)
  end.

(** A comma after every third digit, counted from the right; [l] is the
    digit string reversed and [k] the digits emitted since the last comma. *)
Fixpoint group3 (k : nat) (l : list ascii) : list ascii :=
  match l with
  | [] => []
  | c :: l' =>
      match k, l' with
      | 2%nat, _ :: _ => c :: ","%char :: group3 0 l'
      | _, _ => c :: group3 (S k) l'
      end
  end.

(** [f"{x:,.0f}"] *)
Definition format_comma_0f (x : pyfloat) : string :=
  match x with
  | NaN => "nan"
  | Fin q =>
      let t := Z.abs (round_half_even q) in
      sign_prefix q +:+
      String.string_of_list_ascii
        (reverse (group3 0 (reverse (String.list_ascii_of_string (pretty t)))))
  end.

(** ** The two pages *)

(** What [dashboard2.py] puts on the page for a filtered subset. *)
Record Page2 : Type := mkPage2 {
  p2_budget : string;
  p2_projects : nat;
  p2_progress : string;
  p2_bar : gmap string Z;
  p2_pie : gmap string nat;
  p2_table : DataFrame
}.

Definition page2_of (sub : DataFrame) : Page2 :=
  {| p2_budget := format_comma_0f (Fin (inject_Z (total_budget sub))) +:+ " DH";
     p2_projects := total_projects sub;
     p2_progress := format_1f (avg_progress sub) +:+ "%";
     p2_bar := budget_by_province sub;
     p2_pie := status_distribution sub;
     p2_table := sub |}.

(** One [st.error] line per critical project. *)
Definition alert_line (x : IndexedRow) : string :=
  "**" +:+ Province x.2 +:+ "**: " +:+ Intitule_Projet x.2 +:+
  " (" +:+ Statut x.2 +:+ ")".

(** What [dashboard.py] puts on the page for a filtered subset. *)
Record Page1 : Type := mkPage1 {
  p1_budget : string;
  p1_projects : nat;
  p1_late : nat;
  p1_progress : string;
  p1_map : DataFrame;
  p1_alerts : list string;
  p1_bar : gmap string Z;
  p1_box : list (string * Z);
  p1_pie : gmap string nat;
  p1_table : DataFrame
}.

Definition page1_of (L : Library) (sub : DataFrame) : Page1 :=
  {| p1_budget :=
       format_1f (Fin (inject_Z (total_budget sub) / (1000000 # 1))) +:+ " MDH";
     p1_projects := total_projects sub;
     p1_late := late_projects sub;
     p1_progress := format_1f (avg_progress sub) +:+ "%";
     p1_map := sub;
     p1_alerts := alert_line <$> critical_projects L sub;
     p1_bar := budget_by_province sub;
     p1_box := column (λ r, (Secteur r, Taux_Avancement r)) sub;
     p1_pie := status_distribution sub;
     p1_table := sub |}.

(** ** Loader and geo-enrichment *)

(** [np.random.uniform(low, high, n)] drawing from position [pos] of the
    generator's stream: [low + (high - low) * random_sample()] for each
    value; returns the array and the new position. *)
Definition uniform (L : Library) (pos : nat) (low high : Q) (n : nat)
    : list Q * nat :=
  ((λ k, low + (high - low) * random_sample L (pos + k))%Q <$> seq 0 n,
   (pos + n)%nat).

Definition set_lat (v : Q) (x : IndexedRow) : IndexedRow :=
  (x.1, mkRow (Province x.2) (Secteur x.2) (Intitule_Projet x.2) (Budget_DH x.2)
              (Statut x.2) (Taux_Avancement x.2) (Some v) (lon x.2)).

Definition set_lon (v : Q) (x : IndexedRow) : IndexedRow :=
  (x.1, mkRow (Province x.2) (Secteur x.2) (Intitule_Projet x.2) (Budget_DH x.2)
              (Statut x.2) (Taux_Avancement x.2) (lat x.2) (Some v)).

(** Lines 19-21 of [dashboard.py]: reseed, then one array per new column. *)
Definition geo_enrich (L : Library) (df : DataFrame) : DataFrame :=
  let n := length df in
  let '(lats, pos) := uniform L 0 (- (1 # 2)) (1 # 2) n in
  let df := zip_with set_lat ((λ u, (3162 # 100) + u)%Q <$> lats) df in
  let '(lons, _) := uniform L pos (- (8 # 10)) (8 # 10) n in
  zip_with set_lon ((λ u, - (8 # 1) + u)%Q <$> lons) df.

(** [load_data] of [dashboard.py].  [read_csv] is what
    [pd.read_csv("PDR_Marrakech_Safi_Projects.csv", sep=";")] does in the
    session: it returns the records of the file or raises. *)
Definition load_data (L : Library) (read_csv : py (list Row))
    : py (option DataFrame) :=
  try_except_not_found
    (rs ← read_csv; mret (Some (geo_enrich L (frame_of_records rs))))
    (mret None).

(** [load_data] of [dashboard2.py]: no handler inside. *)
Definition load_data2 (read_csv : py (list Row)) : py DataFrame :=
  rs ← read_csv; mret (frame_of_records rs).

(** ** One run of a script *)

Inductive session (V : Type) : Type :=
| Rendered (page : V)
| Stopped (message : string)
| Aborted (e : exn).
Arguments Rendered {V} page.
Arguments Stopped {V} message.
Arguments Aborted {V} e.

(** [dashboard.py], top to bottom: [st.error] and [st.stop] when
    [load_data] returned [None]; an exception nobody catches ends the
    run. *)
Definition dashboard (L : Library) (read_csv : py (list Row))
    (selected_province selected_sector : list string) : session Page1 :=
  match load_data L read_csv with
  | Raise e => Aborted e
  | Return None =>
      Stopped "⚠️ Veuillez générer le fichier CSV d'abord (Step 1)."
  | Return (Some df) =>
      Rendered (page1_of L (df_filtered df selected_province selected_sector))
  end.

(** [dashboard2.py], top to bottom: the [try] around [load_data()] has one
    handler, for [FileNotFoundError]. *)
Definition dashboard2 (read_csv : py (list Row))
    (selected_province selected_sector : list string) : session Page2 :=
  match try_except_not_found (Some <$> load_data2 read_csv) (mret None) with
  | Raise e => Aborted e
  | Return None =>
      Stopped "⚠️ File not found! Please run the data generation script first."
  | Return (Some df) =>
      Rendered (page2_of (df_filtered df selected_province selected_sector))
  end.


(** ** The delimited text: export and loader at the level of cells

    [pd.read_csv(path, sep=";")] and [df.to_csv(index=False, sep=";")] are
    pandas calls; this module records what they do on the text.  A frame is
    kept here as its column names and its rows of cells, because
    [read_csv] decides the type of each column from the text of all its
    fields.  Out of the model: duplicated column names and rows with more
    fields than the header ([read_csv] answers [None] for both). *)

Module Csv.

Abbreviation text := (list ascii).

Definition chars (s : string) : text := String.list_ascii_of_string s.
Definition str (l : text) : string := String.string_of_list_ascii l.

Definition LF : ascii := "010"%char.
Definition CR : ascii := "013"%char.
Definition DQUOTE : ascii := "034"%char.
Definition SEP : ascii := ";"%char.

(** *** Cells and frames *)

Inductive cell : Type :=
| CNaN
| CInt (z : Z)
| CFloat (q : Q)
| CBool (b : bool)
| CStr (s : string).

#[global] Instance cell_eq_dec : EqDecision cell.
Proof. solve_decision. Defined.

Record frame : Type := mkFrame {
  columns : list string;
  rows : list (list cell)
}.

(** *** Writing: [csv.writer] with [QUOTE_MINIMAL] and line terminator LF *)







(** Two's-complement ranges of the integer dtypes. *)
Definition in_int64 (z : Z) : bool := (- 2 ^ 63 <=? z) && (z <? 2 ^ 63).
Definition in_uint64 (z : Z) : bool := (0 <=? z) && (z <? 2 ^ 64).








(** *** Reading: the tokenizer of the C parser *)

Inductive tstate : Type :=
| StartRecord
| WhitespaceLine
| StartField
| InField
| InQuoted
| QuoteInQuoted
| EatCRNL
| EatCRNLNop.

(** The field, the record and the lines read so far, each latest first. *)
Record tokenizer : Type := mkTok {
  state : tstate;
  field : text;
  record : list text;
  lines : list (list text)
}.

Definition goto (s : tstate) (t : tokenizer) : tokenizer :=
  mkTok s (field t) (record t) (lines t).

Definition push (c : ascii) (t : tokenizer) : tokenizer :=
  mkTok (state t) (c :: field t) (record t) (lines t).

Definition end_field (t : tokenizer) : tokenizer :=
  mkTok (state t) [] (reverse (field t) :: record t) (lines t).

Definition end_line (t : tokenizer) : tokenizer :=
  mkTok (state t) (field t) [] (reverse (record t) :: lines t).

Definition drop_field (t : tokenizer) : tokenizer :=
  mkTok (state t) [] (record t) (lines t).

Definition is_blank (c : ascii) : bool :=
  Ascii.eqb c " "%char || Ascii.eqb c "009"%char.

Definition step_in_field (t : tokenizer) (c : ascii) : tokenizer :=
  if Ascii.eqb c LF then goto StartRecord (end_line (end_field t))
  else if Ascii.eqb c CR then goto EatCRNL (end_field t)
  else if Ascii.eqb c SEP then goto StartField (end_field t)
  else goto InField (push c t).

Definition step_start_field (t : tokenizer) (c : ascii) : tokenizer :=
  if Ascii.eqb c DQUOTE then goto InQuoted t
  else step_in_field t c.

(** Empty lines and lines of blanks are skipped; the blanks of a line that
    turns out to hold something are kept as the start of its first field. *)
Definition step_start_record (t : tokenizer) (c : ascii) : tokenizer :=
  if Ascii.eqb c LF then goto StartRecord t
  else if Ascii.eqb c CR then goto EatCRNLNop t
  else if is_blank c then goto WhitespaceLine (push c t)
  else step_start_field t c.

Definition step (t : tokenizer) (c : ascii) : tokenizer :=
  match state t with
  | StartRecord => step_start_record t c
  | WhitespaceLine =>
      if Ascii.eqb c LF then goto StartRecord (drop_field t)
      else if Ascii.eqb c CR then goto EatCRNLNop (drop_field t)
      else if is_blank c then push c t
      else step_in_field t c
  | StartField => step_start_field t c
  | InField => step_in_field t c
  | InQuoted =>
      if Ascii.eqb c DQUOTE then goto QuoteInQuoted t else push c t
  | QuoteInQuoted =>
      if Ascii.eqb c DQUOTE then goto InQuoted (push c t)
      else step_in_field t c
  | EatCRNL =>
      if Ascii.eqb c LF then goto StartRecord (end_line t)
      else if Ascii.eqb c SEP then goto StartField (end_field (end_line t))
      else step_start_record (goto StartRecord (end_line t)) c
  | EatCRNLNop =>
      if Ascii.eqb c LF then goto StartRecord t
      else step_start_record (goto StartRecord t) c
  end.

Definition run (t : tokenizer) (input : text) : tokenizer := foldl step t input.

(** End of input: an open quoted field is an error, an open line is
    closed. *)
Definition finish (t : tokenizer) : option (list (list text)) :=
  match state t with
  | StartRecord | WhitespaceLine | EatCRNLNop => Some (reverse (lines t))
  | InQuoted => None
  | StartField | InField | QuoteInQuoted =>
      Some (reverse (lines (end_line (end_field t))))
  | EatCRNL => Some (reverse (lines (end_line t)))
  end.

Definition tokenize (input : text) : option (list (list text)) :=
  finish (run (mkTok StartRecord [] [] []) input).

Definition strip_bom (input : text) : text :=
  match input with
  | "239"%char :: "187"%char :: "191"%char :: rest => rest
  | _ => input
  end.

(** *** Reading: what a field is taken for *)

Definition is_space (c : ascii) : bool :=
  Ascii.eqb c " "%char
  || ((9 <=? nat_of_ascii c)%nat && (nat_of_ascii c <=? 13)%nat).

Definition is_digit (c : ascii) : bool :=
  (48 <=? nat_of_ascii c)%nat && (nat_of_ascii c <=? 57)%nat.

Fixpoint lstrip (l : text) : text :=
  match l with
  | c :: l' => if is_space c then lstrip l' else l
  | [] => []
  end.

Definition strip (l : text) : text := reverse (lstrip (reverse (lstrip l))).

(** The integer a field stands for, if it is one: blanks around, one
    optional sign, then digits, at least one. *)
Definition int_literal (tok : string) : option Z :=
  match strip (chars tok) with
  | [] => None
  | c :: l =>
      if Ascii.eqb c "+"%char
      then Z.of_uint <$> DecimalString.NilZero.uint_of_string (str l)
      else Z.of_int <$> DecimalString.NilZero.int_of_string (str (c :: l))
  end.

Fixpoint skip_digits (l : text) : nat * text :=
  match l with
  | c :: l' =>
      if is_digit c then let '(n, r) := skip_digits l' in (S n, r) else (0%nat, l)
  | [] => (0%nat, [])
  end.

Definition drop_sign (l : text) : text :=
  match l with
  | "-"%char :: l' => l'
  | "+"%char :: l' => l'
  | _ => l
  end.

Definition lower (c : ascii) : ascii :=
  if (65 <=? nat_of_ascii c)%nat && (nat_of_ascii c <=? 90)%nat
  then ascii_of_nat (nat_of_ascii c + 32) else c.

(** Digits with an optional point and an optional exponent. *)
Definition decimal_shape (l : text) : bool :=
  let '(n1, r1) := skip_digits l in
  let '(n2, r2) :=
    match r1 with
    | "."%char :: r => skip_digits r
    | _ => (0%nat, r1)
    end in
  (0 <? n1 + n2)%nat &&
  match r2 with
  | [] => true
  | e :: r3 =>
      Ascii.eqb (lower e) "e"%char &&
      let '(n3, r4) := skip_digits (drop_sign r3) in
      (0 <? n3)%nat && bool_decide (r4 = [])
  end.

Definition is_float_literal (tok : string) : bool :=
  let body := drop_sign (strip (chars tok)) in
  decimal_shape body
  || bool_decide (str (lower <$> body) ∈ ["inf"; "infinity"]).

(** The default [na_values] of [read_csv]. *)
Definition na_values : list string :=
  [ ""; "#N/A"; "#N/A N/A"; "#NA"; "-1.#IND"; "-1.#QNAN"; "-NaN"; "-nan";
    "1.#IND"; "1.#QNAN"; "<NA>"; "N/A"; "NA"; "NULL"; "NaN"; "None"; "n/a";
    "nan"; "null" ].

Definition is_na (tok : string) : bool := bool_decide (tok ∈ na_values).

Definition true_values : list string := ["True"; "TRUE"; "true"].
Definition false_values : list string := ["False"; "FALSE"; "false"].

Definition is_bool_word (tok : string) : bool :=
  bool_decide (tok ∈ true_values) || bool_decide (tok ∈ false_values).

Definition is_int_literal (tok : string) : bool :=
  match int_literal tok with Some _ => true | None => false end.

(** *** Reading: the type of a column *)

Inductive dtype : Type := DInt | DFloat | DBool | DObject.

(** All fields are integers that fit one of the two 64-bit integer
    dtypes. *)
Definition int_column (toks : list string) : bool :=
  forallb is_int_literal toks
  && (forallb (λ tok, in_int64 (default 0 (int_literal tok))) toks
      || forallb (λ tok, in_uint64 (default 0 (int_literal tok))) toks).

(** The parser tries int64, then float64, then bool, and keeps the text
    otherwise; a missing value rules out the integer dtype; integers too
    large for 64 bits are kept as text. *)
Definition infer (toks : list string) : dtype :=
  match toks with
  | [] => DObject
  | _ =>
      if int_column toks then DInt
      else if forallb is_int_literal toks then DObject
      else if forallb (λ tok, is_na tok || is_int_literal tok || is_float_literal tok) toks
      then DFloat
      else if forallb (λ tok, is_na tok || is_bool_word tok) toks then DBool
      else DObject
  end.

Definition convert (L : Library) (dt : dtype) (tok : string) : cell :=
  match dt with
  | DInt => CInt (default 0 (int_literal tok))
  | DFloat => if is_na tok then CNaN else CFloat (float_parse L tok)
  | DBool => if is_na tok then CNaN else CBool (bool_decide (tok ∈ true_values))
  | DObject => if is_na tok then CNaN else CStr tok
  end.

(** The field of a row in column [j]; a row that stops short has missing
    values there. *)
Definition field_at (j : nat) (r : list string) : string := default "" (r !! j).

Definition column_at (j : nat) (data : list (list string)) : list string :=
  field_at j <$> data.

Definition dtypes (n : nat) (data : list (list string)) : list dtype :=
  (λ j, infer (column_at j data)) <$> seq 0 n.

Definition convert_row (L : Library) (dts : list dtype) (r : list string)
    : list cell :=
  imap (λ j dt, convert L dt (field_at j r)) dts.

(** A column without a name in the header is called [Unnamed: j]. *)
Definition header_names (header : list string) : list string :=
  imap (λ j name, if decide (name = "") then "Unnamed: " +:+ pretty j else name)
       header.

(** [pd.read_csv(path, sep=";")] on the bytes of the file. *)
Definition read_csv (L : Library) (bytes : string) : option frame :=
  match tokenize (strip_bom (chars bytes)) with
  | Some (header :: data) =>
      let names := header_names (str <$> header) in
      let data := (λ r : list text, str <$> r) <$> data in
      if decide (NoDup names
                 ∧ Forall (λ r : list string, (length r ≤ length names)%nat) data)
      then Some (mkFrame names
                   (convert_row L (dtypes (length names) data) <$> data))
      else None
  | _ => None
  end.

(** *** Frames: selecting rows, adding and hiding columns *)

Definition col_index (name : string) (F : frame) : option nat :=
  fst <$> list_find (λ c, c = name) (columns F).

Definition cell_at (j : nat) (r : list cell) : cell := default CNaN (r !! j).

(** [df[df["Province"].isin(P) & df["Secteur"].isin(S)]]; a missing column
    is a [KeyError]. *)
Definition df_filtered (F : frame) (P S : list cell) : option frame :=
  iP ← col_index "Province" F;
  iS ← col_index "Secteur" F;
  Some (mkFrame (columns F)
          (filter (λ r, cell_at iP r ∈ P ∧ cell_at iS r ∈ S) (rows F))).

(** [df[name] = values]: replaces the column if there is one of that name
    and adds it last otherwise. *)
Definition set_column (name : string) (values : list cell) (F : frame) : frame :=
  match col_index name F with
  | Some j =>
      mkFrame (columns F)
        (zip_with (λ v (r : list cell), <[j := v]> r) values (rows F))
  | None =>
      mkFrame (columns F ++ [name])%list
        (zip_with (λ v (r : list cell), (r ++ [v])%list) values (rows F))
  end.

(** [load_data] of [dashboard.py] on the bytes of the file. *)
Definition load_data (L : Library) (bytes : string) : option frame :=
  F ← read_csv L bytes;
  let n := length (rows F) in
  let '(lats, pos) := uniform L 0 (- (1 # 2)) (1 # 2) n in
  let F := set_column "lat" ((λ u, CFloat ((3162 # 100) + u)) <$> lats) F in
  let '(lons, _) := uniform L pos (- (8 # 10)) (8 # 10) n in
  Some (set_column "lon" ((λ u, CFloat (- (8 # 1) + u)) <$> lons) F).


Definition geo_columns : list string := ["lat"; "lon"].

(** The cells of a row outside the two derived columns. *)
Definition hide_geo (names : list string) (r : list cell) : list cell :=
  (filter (λ p : string * cell, p.1 ∉ geo_columns) (zip names r)).*2.

Definition without_geo (F : frame) : frame :=
  mkFrame (filter (λ name, name ∉ geo_columns) (columns F))
          (hide_geo (columns F) <$> rows F).

(** *** From cells to records

    The pipeline above works on records; a frame of cells stands for
    records when its columns have the names and the types of the project
    table. *)

Definition named (name : string) (F : frame) (r : list cell) : option cell :=
  j ← col_index name F; r !! j.

Definition coordinate (name : string) (F : frame) (r : list cell) : option Q :=
  match named name F r with
  | Some (CFloat q) => Some q
  | _ => None
  end.

Definition typed_row (F : frame) (r : list cell) : option Row :=
  match named "Province" F r, named "Secteur" F r,
        named "Intitulé_Projet" F r, named "Budget_DH" F r,
        named "Statut" F r, named "Taux_Avancement" F r with
  | Some (CStr province), Some (CStr sector), Some (CStr title),
    Some (CInt budget), Some (CStr status), Some (CInt progress) =>
      Some (mkRow province sector title budget status progress
              (coordinate "lat" F r) (coordinate "lon" F r))
  | _, _, _, _, _, _ => None
  end.

Definition typed_rows (F : frame) : option (list Row) :=
  mapM (typed_row F) (rows F).

(** *** Vocabulary of the round trip *)

(** The shape of a frame that [load_data] returns: the two derived columns
    are there, every column has a name of its own, every row has a cell
    per column. *)
Record well_formed (F : frame) : Prop := mkWellFormed {
  wf_two : (2 ≤ length (columns F))%nat;
  wf_named : Forall (λ name, name ≠ "") (columns F);
  wf_nodup : NoDup (columns F);
  wf_rect : Forall (λ r : list cell, length r = length (columns F)) (rows F)
}.










End Csv.

(** ** Two sorters that keep pandas' promise

    Both return the rows ordered by key, largest first; they differ only in
    the order they give to rows with equal keys.  Their generator yields 0
    at every draw and their float text has one decimal; nothing stated
    below depends on how they read a float back. *)

Definition merge_sort_library : Library :=
  {| sort_values_desc := λ key df, merge_sort (by_key_desc key) df;
     random_sample := λ _, 0%Q;
     float_repr := λ q, format_1f (Fin q);
     float_parse := λ _, 0%Q |}.


(** ** A worked table

    Three projects in two provinces and two sectors; the first one has a
    year for title. *)

Definition scenario_records : list Row :=
  [ mkRow "A" "X" "2024" 6000000 "En Retard" 40 None None;
    mkRow "A" "Y" "Ecole" 1000000 "Termine" 100 None None;
    mkRow "B" "X" "Barrage" 7000000 "Suspendu" 15 None None ].

Definition scenario : DataFrame := frame_of_records scenario_records.



(** Two budgets that fit in an int64 and whose sum does not. *)
Definition huge_records : list Row :=
  [ mkRow "A" "X" "Pont" (2 ^ 62) "En Cours" 10 None None;
    mkRow "B" "X" "Port" (2 ^ 62) "En Cours" 20 None None ].

Definition huge : DataFrame := frame_of_records huge_records.

(** ** Vocabulary of the statements *)


(** [y] has the label and the six fields read from the file that [x] has. *)
Definition same_record (x y : IndexedRow) : Prop :=
  y.1 = x.1 ∧ Province y.2 = Province x.2 ∧ Secteur y.2 = Secteur x.2
  ∧ Intitule_Projet y.2 = Intitule_Projet x.2 ∧ Budget_DH y.2 = Budget_DH x.2
  ∧ Statut y.2 = Statut x.2 ∧ Taux_Avancement y.2 = Taux_Avancement x.2.

(** A card shows a defined figure when its number is not [nan]. *)
Definition defined_figure (v : pyfloat) : Prop := v ≠ NaN.

(** The text both scripts put on the progress card for [sub]. *)
Definition progress_card (sub : DataFrame) : string :=
  format_1f (avg_progress sub) +:+ "%".

(** The worked table as a file, with a project whose title is a year. *)
Definition scenario_file : string :=
  Csv.str (mjoin ((λ l, Csv.chars l ++ [Csv.LF])%list <$>
    [ "Province;Secteur;Intitulé_Projet;Budget_DH;Statut;Taux_Avancement";
      "A;X;2024;6000000;En Retard;40";
      "A;Y;Ecole;1000000;Termine;100";
      "B;X;Barrage;7000000;Suspendu;15" ])).

Definition no_frame : Csv.frame := Csv.mkFrame [] [].

(** That file as [load_data] of [dashboard.py] returns it. *)
Definition scenario_frame : Csv.frame :=
  default no_frame (Csv.load_data merge_sort_library scenario_file).



(** ** Groups of a subset *)

(** The rows of a subset that have the key [k]: one group of
    [groupby(key)]. *)
Definition group (key : Row → string) (k : string) (sub : DataFrame) : DataFrame :=
  filter (λ x : IndexedRow, key x.2 = k) sub.

(** The exact sum of an integer column. *)
Definition weigh (w : Row → Z) (sub : DataFrame) : Z := exact_sum (column w sub).



(** * Properties *)

(** ** Frames and [unique] *)

Section frames.

Implicit Types (T df sub : DataFrame) (P S : list string) (x : IndexedRow).

Lemma index_frame_of_records (rs : list Row) :
  index (frame_of_records rs) = seq 0 (length rs).
Proof.
  unfold index, frame_of_records.
  rewrite fmap_imap. apply list_eq. intros i.
  rewrite list_lookup_imap. destruct (rs !! i) as [r|] eqn:Hi; simpl.
  - symmetry. apply lookup_seq. split; [done|]. by eapply lookup_lt_Some.
  - symmetry. apply lookup_seq_ge. by apply lookup_ge_None.
Qed.

(** No two rows of a loaded frame share a label, so no two are equal. *)
Lemma NoDup_frame_of_records (rs : list Row) : NoDup (frame_of_records rs).
Proof.
  apply (NoDup_fmap_1 fst). fold (index (frame_of_records rs)).
  rewrite index_frame_of_records. apply NoDup_seq.
Qed.

Lemma elem_of_unique_from (seen : gset string) (l : list string) (s : string) :
  s ∈ unique_from seen l ↔ s ∈ l ∧ s ∉ seen.
Proof.
  revert seen. induction l as [|y l IH]; intros seen; simpl.
  - rewrite elem_of_nil. naive_solver.
  - case_decide as Hy.
    + rewrite IH, elem_of_cons. naive_solver.
    + rewrite !elem_of_cons, IH. split.
      * intros [->|[? ?]]; [naive_solver|]. split; [by right|set_solver].
      * intros [[->|?] ?]; [by left|].
        destruct (decide (s = y)) as [->|]; [by left|]. right. set_solver.
Qed.

(** The options offered in the sidebar are exactly the values present. *)
Lemma elem_of_unique (l : list string) (s : string) : s ∈ unique l ↔ s ∈ l.
Proof. unfold unique. rewrite elem_of_unique_from. set_solver. Qed.

Lemma elem_of_column {A} (f : Row → A) df x : x ∈ df → f x.2 ∈ column f df.
Proof. intros Hx. unfold column. apply list_elem_of_fmap. by exists x. Qed.

Lemma filter_all {A} (Q : A → Prop) `{!∀ a, Decision (Q a)} (l : list A) :
  Forall Q l → filter Q l = l.
Proof.
  induction 1 as [|a l Ha _ IH]; [done|].
  by rewrite filter_cons_True, IH.
Qed.

Lemma filter_none {A} (Q : A → Prop) `{!∀ a, Decision (Q a)} (l : list A) :
  Forall (λ a, ¬ Q a) l → filter Q l = [].
Proof.
  induction 1 as [|a l Ha _ IH]; [done|].
  by rewrite filter_cons_False.
Qed.

End frames.

(** ** Filter engine *)

Section filter_engine.

Implicit Types (T df sub : DataFrame) (P S : list string) (x : IndexedRow).

Lemma elem_of_df_filtered T P S x :
  x ∈ df_filtered T P S ↔ x ∈ T ∧ Province x.2 ∈ P ∧ Secteur x.2 ∈ S.
Proof.
  unfold df_filtered. rewrite list_elem_of_filter. unfold selected, isin. tauto.
Qed.

Lemma df_filtered_sublist T P S : df_filtered T P S `sublist_of` T.
Proof. apply sublist_filter. Qed.

Lemma NoDup_count_once {A} `{!EqDecision A} (l : list A) (a : A) :
  NoDup l → a ∈ l → count_occ (decide_rel (=)) l a = 1%nat.
Proof.
  intros Hl Ha. apply NoDup_ListNoDup in Hl.
  apply (proj1 (List.NoDup_count_occ' (decide_rel (=)) l) Hl).
  by apply list_elem_of_In.
Qed.

(** C1. For a table as loaded and any selection, every row kept has its
    province and its sector among those selected; every row of the table
    that has both is kept exactly once; and the rows kept come in the order
    they have in the table. *)
Theorem filter_sound_complete (rs : list Row) P S :
  let T := frame_of_records rs in
  let R := df_filtered T P S in
  (∀ x, x ∈ R → Province x.2 ∈ P ∧ Secteur x.2 ∈ S) ∧
  (∀ x, x ∈ T → Province x.2 ∈ P → Secteur x.2 ∈ S →
        count_occ (decide_rel (=)) R x = 1%nat) ∧
  R `sublist_of` T.
Proof.
  intros T R. split; [|split].
  - intros x Hx. apply elem_of_df_filtered in Hx. tauto.
  - intros x HxT HP HS. apply NoDup_count_once.
    + exact (sublist_NoDup R T (NoDup_frame_of_records rs)
                           (df_filtered_sublist T P S)).
    + apply elem_of_df_filtered. auto.
  - apply df_filtered_sublist.
Qed.

Lemma filter_sound_complete_witness :
  count_occ (decide_rel (=)) (df_filtered scenario ["A"] ["X"; "Y"])
            (1%nat, mkRow "A" "Y" "Ecole" 1000000 "Termine" 100 None None)
  = 1%nat.
Proof.
  apply (filter_sound_complete scenario_records ["A"] ["X"; "Y"]).
  - apply list_elem_of_lookup. by exists 1%nat.
  - apply list_elem_of_lookup. by exists 0%nat.
  - apply list_elem_of_lookup. by exists 1%nat.
Defined.

(** C4. Selecting every province and every sector present returns the
    table unchanged, and selecting no province returns no row, whatever
    the sectors. *)
Theorem filter_boundary T :
  df_filtered T (unique (column Province T)) (unique (column Secteur T)) = T
  ∧ ∀ S, df_filtered T [] S = [].
Proof.
  split.
  - apply filter_all, Forall_forall. intros x Hx. split; unfold isin.
    + apply elem_of_unique. by apply (elem_of_column Province).
    + apply elem_of_unique. by apply (elem_of_column Secteur).
  - intros S. apply filter_none, Forall_forall.
    intros x _ [HP _]. unfold isin in HP. by apply elem_of_nil in HP.
Qed.

(** C10. Filtering the filtered subset again with the same selection
    changes nothing. *)
Theorem filter_idempotent T P S :
  df_filtered (df_filtered T P S) P S = df_filtered T P S.
Proof. unfold df_filtered. by apply list_filter_filter_l. Qed.

End filter_engine.

(** ** Aggregator: the alert list *)

Section alerts.

Implicit Types (L : Library) (T df sub out : DataFrame) (x y : IndexedRow).

#[local] Instance by_key_desc_trans key : Transitive (by_key_desc key).
Proof. unfold by_key_desc. intros x y z ??. lia. Qed.

#[local] Instance by_key_desc_total key : Total (by_key_desc key).
Proof. unfold by_key_desc. intros x y. lia. Qed.

Lemma merge_sort_library_ok : LibraryOk merge_sort_library.
Proof.
  split; simpl.
  - intros key df. apply merge_sort_Permutation.
  - intros key df. apply Sorted_merge_sort, _.
  - intros _. split; [apply Qle_refl | reflexivity].
Qed.







End alerts.

(** ** Aggregator: sums *)

Section sums.

Implicit Types (T df sub : DataFrame) (P S : list string) (x : IndexedRow).

Lemma int64_wrap_small z : int64_range z → int64_wrap z = z.
Proof.
  unfold int64_range, int64_wrap. intros Hz.
  rewrite Z.mod_small by lia. lia.
Qed.

Lemma int64_wrap_add_l a b : int64_wrap (int64_wrap a + b) = int64_wrap (a + b).
Proof.
  unfold int64_wrap. f_equal.
  replace ((a + 2 ^ 63) `mod` 2 ^ 64 - 2 ^ 63 + b + 2 ^ 63)
    with ((a + 2 ^ 63) `mod` 2 ^ 64 + b) by lia.
  rewrite Zplus_mod_idemp_l. f_equal. lia.
Qed.

Lemma foldl_int64_wrap a l :
  foldl (λ acc b, int64_wrap (acc + b)) (int64_wrap a) l
  = int64_wrap (a + exact_sum l).
Proof.
  revert a. induction l as [|b l IH]; intros a; simpl.
  - f_equal. lia.
  - rewrite int64_wrap_add_l, IH. f_equal. lia.
Qed.

(** The int64 sum is the exact sum reduced to 64 bits. *)
Lemma series_sum_wrap l : series_sum l = int64_wrap (exact_sum l).
Proof. unfold series_sum. apply (foldl_int64_wrap 0). Qed.

Lemma exact_sum_nonneg l : Forall (λ b, 0 ≤ b) l → 0 ≤ exact_sum l.
Proof. induction 1; simpl; lia. Qed.

Lemma exact_sum_filter_mono (Q1 Q2 : IndexedRow → Prop)
    `{!∀ x, Decision (Q1 x), !∀ x, Decision (Q2 x)} T :
  (∀ x, x ∈ T → 0 ≤ Budget_DH x.2) →
  (∀ x, Q1 x → Q2 x) →
  0 ≤ exact_sum (column Budget_DH (filter Q1 T))
    ≤ exact_sum (column Budget_DH (filter Q2 T)).
Proof.
  intros Hpos Himp. induction T as [|x T IH]; [simpl; lia|].
  assert (0 ≤ Budget_DH x.2) by (apply Hpos; left).
  assert (0 ≤ exact_sum (column Budget_DH (filter Q1 T))
            ≤ exact_sum (column Budget_DH (filter Q2 T))) as IH'.
  { apply IH. intros y Hy. apply Hpos. by right. }
  rewrite !filter_cons. destruct (decide (Q1 x)) as [HQ|HQ].
  - rewrite decide_True by auto. simpl. lia.
  - destruct (decide (Q2 x)); simpl; lia.
Qed.

(** C7, as the code has it.  With budgets that are not negative, and as
    long as the budgets of the larger selection add up to less than 2^63
    (so that the int64 sum does not wrap), shrinking the selected provinces
    or sectors never increases the total budget. *)
Theorem total_budget_monotone T P S P' S' :
  (∀ x, x ∈ T → 0 ≤ Budget_DH x.2) →
  exact_sum (column Budget_DH (df_filtered T P S)) < 2 ^ 63 →
  P' ⊆ P → S' ⊆ S →
  total_budget (df_filtered T P' S') ≤ total_budget (df_filtered T P S).
Proof.
  intros Hpos Hfit HP HS.
  assert (∀ x, selected P' S' x → selected P S x) as Himp.
  { intros x [? ?]. unfold isin in *. split; [by apply HP|by apply HS]. }
  destruct (exact_sum_filter_mono (selected P' S') (selected P S) T Hpos Himp)
    as [H0 Hle].
  unfold total_budget. rewrite !series_sum_wrap.
  unfold df_filtered in *.
  rewrite !int64_wrap_small; [done|unfold int64_range; lia..].
Qed.

Lemma total_budget_monotone_witness :
  total_budget (df_filtered scenario ["A"] ["X"])
  ≤ total_budget (df_filtered scenario ["A"; "B"] ["X"; "Y"]).
Proof.
  apply (total_budget_monotone scenario ["A"; "B"] ["X"; "Y"] ["A"] ["X"]).
  - intros x Hx. vm_compute in Hx.
    repeat (apply elem_of_cons in Hx as [->|Hx]; [vm_compute; discriminate|]).
    by apply elem_of_nil in Hx.
  - vm_compute. reflexivity.
  - intros s Hs. apply elem_of_cons. left. by apply list_elem_of_singleton in Hs.
  - intros s Hs. apply elem_of_cons. left. by apply list_elem_of_singleton in Hs.
Defined.

(** C7, as stated, fails when the sum leaves the int64 range: two budgets
    of 2^62 add up to 2^63, which the int64 sum turns into -2^63, so the
    total of both provinces is below the total of one of them. *)
Lemma total_budget_wraps :
  (∀ x, x ∈ huge → 0 ≤ Budget_DH x.2 ∧ int64_range (Budget_DH x.2))
  ∧ ["A"] ⊆ ["A"; "B"]
  ∧ total_budget (df_filtered huge ["A"] ["X"]) = 2 ^ 62
  ∧ total_budget (df_filtered huge ["A"; "B"] ["X"]) = - 2 ^ 63
  ∧ ¬ total_budget (df_filtered huge ["A"] ["X"])
      ≤ total_budget (df_filtered huge ["A"; "B"] ["X"]).
Proof.
  split; [|split; [|split; [|split]]].
  - intros x Hx. vm_compute in Hx.
    repeat (apply elem_of_cons in Hx as [->|Hx];
            [vm_compute; repeat split; discriminate|]).
    by apply elem_of_nil in Hx.
  - intros s Hs. apply elem_of_cons. left. by apply list_elem_of_singleton in Hs.
  - reflexivity.
  - reflexivity.
  - vm_compute. intros H. by apply H.
Qed.

End sums.

(** ** Aggregator: mean progress over an empty subset *)

Section empty_subset.

Implicit Types (L : Library) (T : DataFrame) (P S : list string).

Lemma dashboard_rendered L (rs : list Row) P S :
  dashboard L (Return rs) P S
  = Rendered (page1_of L (df_filtered (geo_enrich L (frame_of_records rs)) P S)).
Proof. reflexivity. Qed.

Lemma dashboard2_rendered (rs : list Row) P S :
  dashboard2 (Return rs) P S
  = Rendered (page2_of (df_filtered (frame_of_records rs) P S)).
Proof. reflexivity. Qed.

(** C3, as the code has it.  When the selection keeps no row, neither
    script raises: the mean of the empty progress column is [nan], both
    pages are rendered, and the progress card reads "nan%". *)
Theorem avg_progress_empty L (rs : list Row) P S :
  df_filtered (geo_enrich L (frame_of_records rs)) P S = [] →
  df_filtered (frame_of_records rs) P S = [] →
  avg_progress [] = NaN
  ∧ (∃ page, dashboard L (Return rs) P S = Rendered page
             ∧ p1_progress page = "nan%")
  ∧ (∃ page, dashboard2 (Return rs) P S = Rendered page
             ∧ p2_progress page = "nan%").
Proof.
  intros H1 H2. split; [reflexivity|]. split.
  - eexists. split; [apply dashboard_rendered|]. by rewrite H1.
  - eexists. split; [apply dashboard2_rendered|]. by rewrite H2.
Qed.

Lemma avg_progress_empty_witness :
  avg_progress [] = NaN
  ∧ (∃ page, dashboard merge_sort_library (Return scenario_records) [] ["X"]
             = Rendered page
             ∧ p1_progress page = "nan%")
  ∧ (∃ page, dashboard2 (Return scenario_records) [] ["X"] = Rendered page
             ∧ p2_progress page = "nan%").
Proof.
  apply (avg_progress_empty merge_sort_library scenario_records [] ["X"]);
    reflexivity.
Defined.

(** C3, as stated, fails: for a selection that keeps no row the figure
    behind the progress card is the undefined number [nan], and the card
    shows it as "nan%". *)
Lemma avg_progress_empty_not_defined :
  df_filtered scenario [] ["X"] = []
  ∧ ¬ defined_figure (avg_progress (df_filtered scenario [] ["X"]))
  ∧ progress_card (df_filtered scenario [] ["X"]) = "nan%".
Proof.
  split; [reflexivity|]. split; [|reflexivity].
  intros Hdef. by apply Hdef.
Qed.

End empty_subset.

(** ** The invariant of a recomputation *)

Section recomputation.

Implicit Types (L : Library) (T : DataFrame) (P S : list string).



End recomputation.

(** ** Loader errors *)

Section loader.

Implicit Types (L : Library) (P S : list string).

(** C6. When the file is absent, [load_data] of the first script answers
    [None], a value no successful load returns, and both scripts stop with
    their message; any other exception raised by the read is caught by
    nobody and ends the run. *)
Theorem loader_error_behaviour L P S :
  load_data L (Raise FileNotFoundError) = Return None
  ∧ (∀ rs, ∃ df, load_data L (Return rs) = Return (Some df))
  ∧ dashboard L (Raise FileNotFoundError) P S
    = Stopped "⚠️ Veuillez générer le fichier CSV d'abord (Step 1)."
  ∧ dashboard2 (Raise FileNotFoundError) P S
    = Stopped "⚠️ File not found! Please run the data generation script first."
  ∧ ∀ kind,
      load_data L (Raise (OtherError kind)) = Raise (OtherError kind)
      ∧ load_data2 (Raise (OtherError kind)) = Raise (OtherError kind)
      ∧ dashboard L (Raise (OtherError kind)) P S = Aborted (OtherError kind)
      ∧ dashboard2 (Raise (OtherError kind)) P S = Aborted (OtherError kind).
Proof.
  repeat split.
  intros rs. by eexists.
Qed.

End loader.

(** ** The delimited text: what is written is what is read *)

Section csv_tokenizer.

Import Csv.
Local Open Scope list_scope.

Implicit Types (t : tokenizer) (f : text) (fs : list text) (c : ascii).

















End csv_tokenizer.

(** ** The delimited text: cells *)

Section csv_cells.

Import Csv.
Local Open Scope list_scope.

Implicit Types (L : Library) (c : cell) (cells : list cell) (a : ascii).
























End csv_cells.

(** ** The delimited text: frames *)

Section csv_frames.

Import Csv.
Local Open Scope list_scope.

Implicit Types (L : Library) (F G : frame) (r : list cell) (names : list string).










(** *** The check [types_keptb] is sound *)





(** *** The shape of a loaded frame *)

Lemma read_csv_shape L (bytes : string) F :
  read_csv L bytes = Some F →
  Forall (λ name, name ≠ "") (columns F) ∧ NoDup (columns F)
  ∧ Forall (λ r, length r = length (columns F)) (rows F).
Proof.
  unfold read_csv. destruct (tokenize _) as [[|header data]|]; [done| |done].
  case_decide as Hok; [|done]. intros [= <-]. simpl.
  destruct Hok as [Hnodup _]. split; [|split; [done|]].
  - unfold header_names. apply Forall_lookup. intros j name.
    rewrite list_lookup_imap.
    destruct ((str <$> header) !! j) as [n|]; [|done]. simpl.
    case_decide; intros [= <-]; [|done]. done.
  - apply Forall_fmap, Forall_forall. intros r _. simpl.
    unfold convert_row, dtypes. by rewrite length_imap, length_fmap, length_seq.
Qed.

Lemma col_index_Some name F j :
  col_index name F = Some j → columns F !! j = Some name.
Proof.
  unfold col_index. destruct (list_find _ _) as [[i x]|] eqn:Hfind; [|done].
  intros [= <-]. apply list_find_Some in Hfind as (Hi & -> & _). done.
Qed.

Lemma col_index_None name F : col_index name F = None → name ∉ columns F.
Proof.
  unfold col_index. destruct (list_find _ _) as [[i x]|] eqn:Hfind; [done|].
  intros _ Hin. apply list_find_None in Hfind.
  by apply (proj1 (Forall_forall _ _) Hfind name Hin).
Qed.

Lemma set_column_shape name (values : list cell) F :
  name ≠ "" →
  Forall (λ n, n ≠ "") (columns F) ∧ NoDup (columns F)
  ∧ Forall (λ r, length r = length (columns F)) (rows F) →
  let G := set_column name values F in
  Forall (λ n, n ≠ "") (columns G) ∧ NoDup (columns G)
  ∧ Forall (λ r, length r = length (columns G)) (rows G)
  ∧ name ∈ columns G ∧ (∀ n, n ∈ columns F → n ∈ columns G).
Proof.
  intros Hname (Hnamed & Hnodup & Hrect). unfold set_column.
  destruct (col_index name F) as [j|] eqn:Hidx; simpl.
  - repeat split; [done|done| | |done].
    + apply (Forall_zip_with_snd _ (λ r, length r = length (columns F)));
        [|done].
      apply Forall_forall. intros v _ r Hr. by rewrite length_insert.
    + apply col_index_Some in Hidx. by eapply list_elem_of_lookup_2.
  - apply col_index_None in Hidx. repeat split.
    + apply Forall_app. split; [done|]. by constructor.
    + apply NoDup_app. repeat split; [done| |apply NoDup_singleton].
      intros n Hn ->%list_elem_of_singleton. done.
    + apply (Forall_zip_with_snd _ (λ r, length r = length (columns F)));
        [|done].
      apply Forall_forall. intros v _ r Hr. rewrite !length_app, Hr. done.
    + apply elem_of_app. right. by apply list_elem_of_singleton.
    + intros n Hn. apply elem_of_app. by left.
Qed.

Lemma two_distinct {A} (l : list A) (x y : A) :
  x ∈ l → y ∈ l → x ≠ y → (2 ≤ length l)%nat.
Proof.
  intros Hx Hy Hne. destruct l as [|a [|b l]]; simpl; [|exfalso|lia].
  - by apply elem_of_nil in Hx.
  - apply list_elem_of_singleton in Hx, Hy. congruence.
Qed.

(** What [load_data] returns has the shape the export relies on, and the
    two derived columns. *)
Lemma load_data_well_formed L (bytes : string) F :
  Csv.load_data L bytes = Some F →
  well_formed F ∧ "lat" ∈ columns F ∧ "lon" ∈ columns F.
Proof.
  unfold Csv.load_data. destruct (read_csv L bytes) as [F0|] eqn:Hread; [|done].
  simpl. unfold uniform. intros [= <-].
  apply read_csv_shape in Hread.
  match goal with
  | |- well_formed (set_column "lon" ?v2 (set_column "lat" ?v1 F0)) ∧ _ =>
      destruct (set_column_shape "lat" v1 F0 ltac:(done) Hread)
        as (H1 & H2 & H3 & Hlat & _);
      destruct (set_column_shape "lon" v2 (set_column "lat" v1 F0)
                  ltac:(done) (conj H1 (conj H2 H3)))
        as (H1' & H2' & H3' & Hlon & Hkeep)
  end.
  split; [|split; [by apply Hkeep|done]].
  split; [|done..].
  apply (two_distinct _ "lat" "lon"); [by apply Hkeep|done|done].
Qed.




Lemma col_index_elem_of name F :
  name ∈ columns F → ∃ j, col_index name F = Some j.
Proof.
  intros Hin. destruct (col_index name F) as [j|] eqn:Hidx; [by eexists|].
  by apply col_index_None in Hidx.
Qed.

Lemma hide_geo_insert names r j name (v : cell) :
  names !! j = Some name → name ∈ geo_columns →
  hide_geo names (<[j := v]> r) = hide_geo names r.
Proof.
  intros Hj Hgeo. unfold hide_geo. revert r j Hj.
  induction names as [|n names IH]; intros r j Hj; [done|].
  destruct r as [|c r]; [done|].
  destruct j as [|j]; simpl in Hj.
  - simplify_eq. simpl. rewrite !filter_cons. simpl.
    by rewrite !decide_False by (by intros ?).
  - simpl. rewrite !filter_cons. simpl.
    specialize (IH r j Hj).
    destruct (decide (n ∉ geo_columns)); [|done].
    csimpl. by rewrite IH.
Qed.

(** Writing a derived column over the one read changes nothing outside the
    derived columns. *)
Lemma without_geo_set_column name (values : list cell) F :
  name ∈ geo_columns → name ∈ columns F →
  length values = length (rows F) →
  without_geo (set_column name values F) = without_geo F
  ∧ columns (set_column name values F) = columns F
  ∧ length (rows (set_column name values F)) = length (rows F).
Proof.
  intros Hgeo Hin Hlen. unfold set_column.
  destruct (col_index_elem_of name F Hin) as [j Hj]. rewrite Hj.
  apply col_index_Some in Hj.
  split; [|split; [done|]].
  - unfold without_geo. simpl. f_equal.
    revert values Hlen. generalize (rows F) as rs.
    induction rs as [|r rs IH]; intros [|v values] Hlen; simplify_eq/=; [done|].
    f_equal; [|by apply IH].
    by apply (hide_geo_insert _ _ _ name).
  - simpl. rewrite length_zip_with. lia.
Qed.





End csv_frames.

(** ** Geo-enrichment: what does not depend on the numbers drawn *)

Section geo.

Implicit Types (L : Library) (df : DataFrame) (x y : IndexedRow).

Lemma Forall2_zip_with_column {V} (f : V → IndexedRow → IndexedRow)
    (values : list V) df :
  (∀ v x, same_record x (f v x)) → length values = length df →
  Forall2 same_record df (zip_with f values df).
Proof.
  intros Hf. revert values.
  induction df as [|x df IH]; intros [|v values] Hlen; simplify_eq/=;
    constructor; auto.
Qed.

Lemma same_record_trans x y z :
  same_record x y → same_record y z → same_record x z.
Proof. unfold same_record. intros (?&?&?&?&?&?&?) (?&?&?&?&?&?&?). by repeat split; congruence. Qed.

(** Adding [lat] and [lon] keeps the number of rows, their labels, their
    order and the six fields read from the file. *)
Lemma geo_enrich_same_records L df :
  Forall2 same_record df (geo_enrich L df).
Proof.
  unfold geo_enrich, uniform.
  set (lats := (λ u, (3162 # 100) + u)%Q <$> _).
  set (lons := (λ u, - (8 # 1) + u)%Q <$> _).
  assert (Forall2 same_record df (zip_with set_lat lats df)) as H1.
  { apply Forall2_zip_with_column; [by intros v [i r]|].
    unfold lats. by rewrite !length_fmap, length_seq. }
  eapply Forall2_trans; [apply same_record_trans|exact H1|].
  apply Forall2_zip_with_column; [by intros v [i r]|].
  unfold lons. rewrite !length_fmap, length_seq.
  first [exact (Forall2_length _ _ _ H1)|symmetry; exact (Forall2_length _ _ _ H1)].
Qed.

Lemma geo_enrich_length L df : length (geo_enrich L df) = length df.
Proof. symmetry. eapply Forall2_length, geo_enrich_same_records. Qed.

Lemma uniform_in_range L pos (low high : Q) n u :
  LibraryOk L → (low <= high)%Q → u ∈ (uniform L pos low high n).1 →
  (low <= u)%Q ∧ (u <= high)%Q.
Proof.
  intros HL Hlh Hu. unfold uniform in Hu. simpl in Hu.
  apply list_elem_of_fmap in Hu as (k & -> & _).
  destruct (random_sample_range L HL (pos + k)) as [H0 H1].
  split; nra.
Qed.

(** In exact arithmetic, every row gets a latitude within 0.5 of 31.62 and
    a longitude within 0.8 of -8.00. *)
Lemma geo_enrich_in_range L df x :
  LibraryOk L → x ∈ geo_enrich L df →
  ∃ la lo, lat x.2 = Some la ∧ lon x.2 = Some lo
           ∧ ((3162 # 100) - (1 # 2) <= la)%Q ∧ (la <= (3162 # 100) + (1 # 2))%Q
           ∧ (- (8 # 1) - (8 # 10) <= lo)%Q ∧ (lo <= - (8 # 1) + (8 # 10))%Q.
Proof.
  intros HL Hx. unfold geo_enrich in Hx.
  destruct (uniform L 0 (- (1 # 2)) (1 # 2) (length df)) as [lats pos] eqn:Hlats.
  destruct (uniform L pos (- (8 # 10)) (8 # 10) (length df)) as [lons pos'] eqn:Hlons.
  apply elem_of_zip_with in Hx as (vlo & y & -> & Hvlo & Hy).
  apply elem_of_zip_with in Hy as (vla & z & -> & Hvla & _).
  apply list_elem_of_fmap in Hvlo as (ulo & -> & Hulo).
  apply list_elem_of_fmap in Hvla as (ula & -> & Hula).
  assert (ula ∈ (uniform L 0 (- (1 # 2)) (1 # 2) (length df)).1) as Hula'
    by (by rewrite Hlats).
  assert (ulo ∈ (uniform L pos (- (8 # 10)) (8 # 10) (length df)).1) as Hulo'
    by (by rewrite Hlons).
  apply uniform_in_range in Hula' as [? ?]; [|done|done].
  apply uniform_in_range in Hulo' as [? ?]; [|done|done].
  eexists _, _. simpl. repeat split; lra.
Qed.

(** The worked file, read cell by cell and taken as records, is the worked
    table with its two derived columns. *)
Lemma scenario_frame_typed :
  frame_of_records <$> Csv.typed_rows scenario_frame
  = Some (geo_enrich merge_sort_library scenario).
Proof. vm_compute. reflexivity. Qed.

End geo.

(** ** Cells and records: the two accounts of the filter agree *)

Section cells_and_records.

Local Open Scope list_scope.

Implicit Types (F G : Csv.frame) (r : list Csv.cell) (P S : list string).

#[local] Instance CStr_inj : Inj (=) (=) Csv.CStr.
Proof. by intros s1 s2 [= ->]. Qed.

Lemma typed_row_province_sector F r row iP iS :
  Csv.typed_row F r = Some row →
  Csv.col_index "Province" F = Some iP → Csv.col_index "Secteur" F = Some iS →
  Csv.cell_at iP r = Csv.CStr (Province row)
  ∧ Csv.cell_at iS r = Csv.CStr (Secteur row).
Proof.
  unfold Csv.typed_row, Csv.named, Csv.cell_at. intros Hrow HP HS.
  rewrite HP, HS in Hrow. simpl in Hrow.
  destruct (r !! iP) as [[]|]; try done.
  destruct (r !! iS) as [[]|]; try done.
  repeat case_match; simplify_eq/=. done.
Qed.

Lemma Forall2_filter {A B} (R : A → B → Prop) (Q1 : A → Prop) (Q2 : B → Prop)
    `{!∀ a, Decision (Q1 a), !∀ b, Decision (Q2 b)} (l : list A) (k : list B) :
  Forall2 (λ a b, R a b ∧ (Q1 a ↔ Q2 b)) l k →
  Forall2 R (filter Q1 l) (filter Q2 k).
Proof.
  induction 1 as [|a b l k [HR HQ] _ IH]; [constructor|].
  rewrite !filter_cons.
  destruct (decide (Q1 a)) as [H1|H1].
  - rewrite decide_True by tauto. by constructor.
  - rewrite decide_False by tauto. done.
Qed.

Lemma filter_frame_of_records (Q : Row → Prop) `{!∀ row, Decision (Q row)}
    (rs : list Row) (g : nat → nat) :
  (filter (λ x : IndexedRow, Q x.2) (imap (λ i row, (g i, row)) rs)).*2
  = filter Q rs.
Proof.
  revert g. induction rs as [|row rs IH]; intros g; [done|].
  rewrite imap_cons, !filter_cons. simpl.
  specialize (IH (g ∘ S)).
  destruct (decide (Q row)); csimpl; by rewrite <-IH.
Qed.

(** Selecting rows of cells by province and sector selects the records
    that [df_filtered] selects. *)
Lemma df_filtered_typed F P S G (rs : list Row) :
  Csv.typed_rows F = Some rs →
  Csv.df_filtered F (Csv.CStr <$> P) (Csv.CStr <$> S) = Some G →
  Csv.typed_rows G = Some ((df_filtered (frame_of_records rs) P S).*2).
Proof.
  intros Hrs. unfold Csv.df_filtered.
  destruct (Csv.col_index "Province" F) as [iP|] eqn:HP; [|done]. simpl.
  destruct (Csv.col_index "Secteur" F) as [iS|] eqn:HS; [|done]. simpl.
  intros [= <-].
  assert ((df_filtered (frame_of_records rs) P S).*2
          = filter (λ row, Province row ∈ P ∧ Secteur row ∈ S) rs) as ->.
  { exact (filter_frame_of_records
             (λ row, Province row ∈ P ∧ Secteur row ∈ S) rs (λ i, i)). }
  unfold Csv.typed_rows in *. apply mapM_Some. apply mapM_Some in Hrs.
  change (Csv.typed_row (Csv.mkFrame (Csv.columns F) ?x)) with (Csv.typed_row F).
  apply Forall2_filter. eapply Forall2_impl; [exact Hrs|].
  intros r row Hrow. split; [done|]. simpl in Hrow.
  destruct (typed_row_province_sector F r row iP iS Hrow HP HS) as [-> ->].
  rewrite !(list_elem_of_fmap_inj Csv.CStr). done.
Qed.

End cells_and_records.

(** * Further properties of the scripts *)

(** ** Sidebar options and selections *)

Section selections.

Implicit Types (T df sub : DataFrame) (P S : list string) (x : IndexedRow).




Lemma selected_mono P S P' S' x :
  P' ⊆ P → S' ⊆ S → selected P' S' x → selected P S x.
Proof. intros HP HS [? ?]. split; unfold isin in *; [by apply HP|by apply HS]. Qed.

(** X2. Ticking fewer provinces or sectors only removes rows: what is kept
    is, in order, part of what was kept before, and the project count does
    not grow. *)
Theorem filter_shrinks T P S P' S' :
  P' ⊆ P → S' ⊆ S →
  df_filtered T P' S' `sublist_of` df_filtered T P S
  ∧ (total_projects (df_filtered T P' S') ≤ total_projects (df_filtered T P S))%nat.
Proof.
  intros HP HS.
  assert (df_filtered T P' S' = df_filtered (df_filtered T P S) P' S') as Heq.
  { unfold df_filtered. symmetry. apply list_filter_filter_l.
    intros x. by apply selected_mono. }
  assert (df_filtered T P' S' `sublist_of` df_filtered T P S) as Hsub.
  { rewrite Heq. apply sublist_filter. }
  split; [done|]. unfold total_projects. by apply sublist_length.
Qed.

Lemma filter_shrinks_witness :
  df_filtered scenario ["A"] ["X"] `sublist_of` df_filtered scenario ["A"; "B"] ["X"]
  ∧ (total_projects (df_filtered scenario ["A"] ["X"])
     ≤ total_projects (df_filtered scenario ["A"; "B"] ["X"]))%nat.
Proof.
  apply (filter_shrinks scenario ["A"; "B"] ["X"] ["A"] ["X"]).
  - intros s Hs. apply elem_of_cons. left. by apply list_elem_of_singleton in Hs.
  - intros s Hs. done.
Defined.

(** X3. Filtering twice is filtering once with the values ticked both
    times, in whichever order the two filters are applied; and a selection
    counts as a set: listing its values in another order, or twice, selects
    the same rows. *)
Theorem filter_composes T P S P' S' :
  df_filtered (df_filtered T P S) P' S'
  = df_filtered T (filter (λ s, s ∈ P) P') (filter (λ s, s ∈ S) S')
  ∧ df_filtered (df_filtered T P S) P' S' = df_filtered (df_filtered T P' S') P S
  ∧ ((∀ s, s ∈ P ↔ s ∈ P') → (∀ s, s ∈ S ↔ s ∈ S') →
     df_filtered T P S = df_filtered T P' S').
Proof.
  unfold df_filtered. split; [|split].
  - rewrite list_filter_filter. apply list_filter_iff. intros x.
    unfold selected, isin. rewrite !list_elem_of_filter. tauto.
  - rewrite !list_filter_filter. apply list_filter_iff. intros x. tauto.
  - intros HP HS. apply list_filter_iff. intros x.
    unfold selected, isin. by rewrite HP, HS.
Qed.

Lemma filter_composes_witness :
  df_filtered scenario ["A"; "B"] ["X"] = df_filtered scenario ["B"; "A"; "B"] ["X"; "X"].
Proof.
  apply (filter_composes scenario ["A"; "B"] ["X"] ["B"; "A"; "B"] ["X"; "X"]).
  - intros s. rewrite !elem_of_cons. tauto.
  - intros s. rewrite !elem_of_cons. tauto.
Defined.

End selections.

(** ** Totals *)

Section totals.

Implicit Types (T df sub a b : DataFrame).






End totals.

(** ** Groups: the bars and the slices *)

Section groups.

Implicit Types (T df sub : DataFrame) (x : IndexedRow) (p s : string).

Lemma group_nil_iff (key : Row → string) k sub :
  group key k sub = [] ↔ k ∉ column key sub.
Proof.
  unfold group, column. induction sub as [|x sub IH].
  { split; [intros _; apply not_elem_of_nil|done]. }
  rewrite filter_cons, fmap_cons, not_elem_of_cons.
  destruct (decide (key x.2 = k)) as [<-|Hne]; [naive_solver|].
  rewrite IH. naive_solver.
Qed.

Lemma foldl_budget_lookup (m : gmap string Z) sub p :
  foldl (λ (m : gmap string Z) (x : IndexedRow),
           <[Province x.2 := int64_wrap (default 0 (m !! Province x.2) + Budget_DH x.2)]> m)
        m sub !! p
  = match group Province p sub with
    | [] => m !! p
    | g => Some (int64_wrap (default 0 (m !! p) + exact_sum (column Budget_DH g)))
    end.
Proof.
  revert m. induction sub as [|x sub IH]; intros m; [done|].
  simpl foldl. rewrite IH. unfold group. rewrite filter_cons.
  destruct (decide (Province x.2 = p)) as [<-|Hne].
  - rewrite lookup_insert_eq. simpl default.
    destruct (filter _ sub) as [|y g]; simpl.
    + do 2 f_equal. lia.
    + f_equal. rewrite int64_wrap_add_l. f_equal. lia.
  - by rewrite lookup_insert_ne.
Qed.

Lemma budget_by_province_bar sub p :
  p ∈ column Province sub →
  budget_by_province sub !! p
  = Some (int64_wrap (weigh Budget_DH (group Province p sub))).
Proof.
  intros Hp. unfold budget_by_province.
  rewrite foldl_budget_lookup, lookup_empty.
  destruct (group Province p sub) as [|y g] eqn:Hg.
  - by apply group_nil_iff in Hg.
  - simpl default. by rewrite Z.add_0_l.
Qed.

Lemma budget_by_province_no_bar sub p :
  p ∉ column Province sub → budget_by_province sub !! p = None.
Proof.
  intros Hp. unfold budget_by_province.
  rewrite foldl_budget_lookup, lookup_empty.
  apply group_nil_iff in Hp. by rewrite Hp.
Qed.

(** X5. The chart of budgets has one bar for each province present in the
    subset and no other; the bar of a province is the total budget of the
    rows of that province. *)
Theorem budget_by_province_lookup sub p :
  budget_by_province sub !! p
  = if decide (p ∈ column Province sub)
    then Some (total_budget (group Province p sub))
    else None.
Proof.
  case_decide as Hp.
  - rewrite budget_by_province_bar by done.
    unfold total_budget, weigh. by rewrite series_sum_wrap.
  - by apply budget_by_province_no_bar.
Qed.

Lemma foldl_status_lookup (m : gmap string nat) sub s :
  foldl (λ (m : gmap string nat) (x : IndexedRow),
           <[Statut x.2 := S (default 0%nat (m !! Statut x.2))]> m)
        m sub !! s
  = match group Statut s sub with
    | [] => m !! s
    | g => Some (default 0 (m !! s) + length g)%nat
    end.
Proof.
  revert m. induction sub as [|x sub IH]; intros m; [done|].
  simpl foldl. rewrite IH. unfold group. rewrite filter_cons.
  destruct (decide (Statut x.2 = s)) as [<-|Hne].
  - rewrite lookup_insert_eq. simpl default.
    destruct (filter _ sub) as [|y g]; simpl; f_equal; lia.
  - by rewrite lookup_insert_ne.
Qed.

Lemma status_distribution_slice sub s :
  s ∈ column Statut sub →
  status_distribution sub !! s = Some (length (group Statut s sub)).
Proof.
  intros Hs. unfold status_distribution.
  rewrite foldl_status_lookup, lookup_empty.
  destruct (group Statut s sub) as [|y g] eqn:Hg; [|done].
  by apply group_nil_iff in Hg.
Qed.

Lemma status_distribution_no_slice sub s :
  s ∉ column Statut sub → status_distribution sub !! s = None.
Proof.
  intros Hs. unfold status_distribution.
  rewrite foldl_status_lookup, lookup_empty.
  apply group_nil_iff in Hs. by rewrite Hs.
Qed.

(** X6. The pie has one slice for each status present in the subset and
    no other; the slice of a status counts the rows with that status.  The
    card of late projects shows the slice of "En Retard", or 0 when there
    is none, and never more than the number of projects. *)
Theorem status_distribution_lookup sub s :
  status_distribution sub !! s
  = (if decide (s ∈ column Statut sub)
     then Some (length (group Statut s sub))
     else None)
  ∧ late_projects sub = default 0%nat (status_distribution sub !! "En Retard")
  ∧ (late_projects sub ≤ total_projects sub)%nat.
Proof.
  split; [|split].
  - case_decide as Hs.
    + by apply status_distribution_slice.
    + by apply status_distribution_no_slice.
  - unfold late_projects. fold (group Statut "En Retard" sub).
    destruct (decide ("En Retard" ∈ column Statut sub)) as [Hs|Hs].
    + by rewrite status_distribution_slice.
    + rewrite status_distribution_no_slice by done.
      apply group_nil_iff in Hs. by rewrite Hs.
  - unfold late_projects, total_projects. apply length_filter.
Qed.






End groups.

(** ** The charts and the alert list under a selection *)

Section selections_and_charts.

Local Open Scope list_scope.

Implicit Types (L : Library) (T df sub : DataFrame) (x y : IndexedRow)
  (P S : list string) (p s : string).

#[local] Existing Instance by_key_desc_trans.

Lemma bar_of_group sub p :
  budget_by_province sub !! p
  = match group Province p sub with
    | [] => None
    | g => Some (int64_wrap (weigh Budget_DH g))
    end.
Proof.
  unfold budget_by_province. rewrite foldl_budget_lookup, lookup_empty.
  destruct (group Province p sub); [done|]. simpl default.
  by rewrite Z.add_0_l.
Qed.

Lemma group_df_filtered T P S p :
  p ∈ P →
  group Province p (df_filtered T P S)
  = filter (λ x : IndexedRow, Province x.2 = p ∧ Secteur x.2 ∈ S) T.
Proof.
  intros Hp. unfold group, df_filtered. rewrite list_filter_filter.
  apply list_filter_iff. intros x. unfold selected, isin.
  split; [tauto|]. intros [Hx ?]. rewrite Hx. tauto.
Qed.

(** X8. Unticking provinces removes their bars and touches no other: a
    province that is not selected has no bar, and the bar of a selected
    province is the same under any two selections of provinces that hold
    it, the sectors being the same. *)
Theorem bars_under_province_filter T P P' S p :
  (p ∉ P → budget_by_province (df_filtered T P S) !! p = None)
  ∧ (p ∈ P → p ∈ P' →
     budget_by_province (df_filtered T P S) !! p
     = budget_by_province (df_filtered T P' S) !! p).
Proof.
  split.
  - intros Hp. apply budget_by_province_no_bar.
    unfold column. rewrite list_elem_of_fmap. intros (x & -> & Hx).
    apply elem_of_df_filtered in Hx as (_ & Hx & _). done.
  - intros Hp Hp'. by rewrite !bar_of_group, !group_df_filtered.
Qed.

Lemma bars_under_province_filter_witness :
  budget_by_province (df_filtered scenario ["A"] ["X"; "Y"]) !! "B" = None
  ∧ budget_by_province (df_filtered scenario ["A"] ["X"; "Y"]) !! "A"
    = budget_by_province (df_filtered scenario ["A"; "B"] ["X"; "Y"]) !! "A".
Proof.
  split.
  - apply (proj1 (bars_under_province_filter scenario ["A"] ["A"] ["X"; "Y"] "B")).
    apply (bool_decide_unpack _). by vm_compute.
  - apply (proj2 (bars_under_province_filter scenario ["A"] ["A"; "B"]
                    ["X"; "Y"] "A")); apply (bool_decide_unpack _); by vm_compute.
Defined.

(** X9. The alert list is a top five: it has five rows, or as many as
    there are critical rows when they are fewer; no critical row left out
    has a larger budget than a row listed; and with at most five critical
    rows all of them are listed. *)
Theorem critical_projects_top L sub :
  LibraryOk L →
  length (critical_projects L sub) = (5 `min` length (filter is_critical sub))%nat
  ∧ (∀ x y, x ∈ critical_projects L sub → y ∈ sub → is_critical y →
            y ∉ critical_projects L sub → Budget_DH y.2 ≤ Budget_DH x.2)
  ∧ ((length (filter is_critical sub) ≤ 5)%nat →
     critical_projects L sub ≡ₚ filter is_critical sub).
Proof.
  intros HL. unfold critical_projects.
  set (sorted := sort_values_desc L Budget_DH (filter is_critical sub)).
  assert (sorted ≡ₚ filter is_critical sub) as Hperm
    by apply (sort_values_perm L HL).
  split; [|split].
  - by rewrite length_take, Hperm.
  - intros x y Hx Hy Hcrit Hout.
    assert (y ∈ drop 5 sorted) as Hdrop.
    { assert (y ∈ take 5 sorted ++ drop 5 sorted) as Hin.
      { rewrite take_drop, Hperm. by apply list_elem_of_filter. }
      apply elem_of_app in Hin as [?|?]; done. }
    apply (StronglySorted_app_1_elem_of (by_key_desc Budget_DH)
             (take 5 sorted) (drop 5 sorted) x y); [|done|done].
    rewrite take_drop. apply Sorted_StronglySorted; [apply _|].
    apply (sort_values_sorted L HL).
  - intros Hfew. rewrite take_ge; [done|]. by rewrite Hperm.
Qed.

Lemma critical_projects_top_witness :
  length (critical_projects merge_sort_library scenario) = 2%nat
  ∧ critical_projects merge_sort_library scenario ≡ₚ filter is_critical scenario.
Proof.
  destruct (critical_projects_top merge_sort_library scenario
              merge_sort_library_ok) as (Hlen & _ & Hall).
  split; [exact Hlen|]. apply Hall. vm_compute. lia.
Defined.

Lemma critical_projects_nil L : LibraryOk L → critical_projects L [] = [].
Proof.
  intros HL. unfold critical_projects.
  rewrite filter_nil.
  assert (sort_values_desc L Budget_DH [] = []) as ->; [|done].
  apply Permutation_nil_r, (sort_values_perm L HL).
Qed.

End selections_and_charts.

(** ** The two scripts side by side *)

Section two_scripts.

Local Open Scope list_scope.

Implicit Types (L : Library) (T df sub a b : DataFrame) (x y : IndexedRow)
  (P S : list string).

Lemma df_filtered_nil T P S : P = [] ∨ S = [] → df_filtered T P S = [].
Proof.
  intros HPS. apply filter_none, Forall_forall. intros x _ [HP HS].
  unfold isin in *. destruct HPS as [-> | ->]; by eapply not_elem_of_nil.
Qed.

(** X10. With no province ticked, or no sector ticked, both scripts still
    render: the budget cards read "0.0 MDH" and "0 DH", the counts are 0,
    the progress cards read "nan%", and the map, the alert list, the charts
    and the table are empty. *)
Theorem empty_selection_page L (rs : list Row) P S :
  LibraryOk L → P = [] ∨ S = [] →
  dashboard L (Return rs) P S
  = Rendered {| p1_budget := "0.0 MDH"; p1_projects := 0; p1_late := 0;
                p1_progress := "nan%"; p1_map := []; p1_alerts := [];
                p1_bar := ∅; p1_box := []; p1_pie := ∅; p1_table := [] |}
  ∧ dashboard2 (Return rs) P S
    = Rendered {| p2_budget := "0 DH"; p2_projects := 0; p2_progress := "nan%";
                  p2_bar := ∅; p2_pie := ∅; p2_table := [] |}.
Proof.
  intros HL HPS.
  rewrite dashboard_rendered, dashboard2_rendered, !df_filtered_nil by done.
  unfold page1_of, page2_of. rewrite critical_projects_nil by done.
  split; reflexivity.
Qed.

Lemma empty_selection_page_witness :
  dashboard2 (Return scenario_records) [] ["X"; "Y"]
  = Rendered {| p2_budget := "0 DH"; p2_projects := 0; p2_progress := "nan%";
                p2_bar := ∅; p2_pie := ∅; p2_table := [] |}.
Proof.
  apply (empty_selection_page merge_sort_library scenario_records [] ["X"; "Y"]).
  - apply merge_sort_library_ok.
  - left. reflexivity.
Defined.

Lemma same_record_column {A} (f : Row → A) a b :
  (∀ x y, same_record x y → f y.2 = f x.2) →
  Forall2 same_record a b → column f b = column f a.
Proof.
  intros Hf. unfold column. induction 1 as [|x y a b Hxy _ IH]; [done|].
  rewrite !fmap_cons, IH. f_equal. by apply Hf.
Qed.

Lemma same_record_df_filtered a b P S :
  Forall2 same_record a b →
  Forall2 same_record (df_filtered a P S) (df_filtered b P S).
Proof.
  intros Hab. unfold df_filtered. apply Forall2_filter.
  eapply Forall2_impl; [exact Hab|]. intros x y Hxy. split; [done|].
  unfold selected, isin.
  destruct Hxy as (_ & -> & -> & _). done.
Qed.

Lemma same_record_budget_by_province a b :
  Forall2 same_record a b → budget_by_province b = budget_by_province a.
Proof.
  unfold budget_by_province. generalize (∅ : gmap string Z).
  intros m Hab. revert m.
  induction Hab as [|x y a b Hxy _ IH]; intros m; [done|].
  simpl. rewrite IH. destruct Hxy as (_ & -> & _ & _ & -> & _). done.
Qed.

Lemma same_record_status_distribution a b :
  Forall2 same_record a b → status_distribution b = status_distribution a.
Proof.
  unfold status_distribution. generalize (∅ : gmap string nat).
  intros m Hab. revert m.
  induction Hab as [|x y a b Hxy _ IH]; intros m; [done|].
  simpl. rewrite IH. destruct Hxy as (_ & _ & _ & _ & _ & -> & _). done.
Qed.

(** X11. On the same file and the same selection the two scripts show
    the same projects: row for row the tables have the same label and the
    same six fields read from the file, and the project count, the total
    budget behind the budget card, the progress card, the bars and the
    slices are equal.  The two columns the first script adds change none
    of them. *)
Theorem dashboards_agree L (rs : list Row) P S :
  ∃ page1 page2,
    dashboard L (Return rs) P S = Rendered page1
    ∧ dashboard2 (Return rs) P S = Rendered page2
    ∧ Forall2 same_record (p2_table page2) (p1_table page1)
    ∧ p1_projects page1 = p2_projects page2
    ∧ total_budget (p1_table page1) = total_budget (p2_table page2)
    ∧ p1_progress page1 = p2_progress page2
    ∧ p1_bar page1 = p2_bar page2
    ∧ p1_pie page1 = p2_pie page2.
Proof.
  eexists _, _. split; [apply dashboard_rendered|].
  split; [apply dashboard2_rendered|]. simpl.
  assert (Forall2 same_record (df_filtered (frame_of_records rs) P S)
            (df_filtered (geo_enrich L (frame_of_records rs)) P S)) as Hsame
    by apply same_record_df_filtered, geo_enrich_same_records.
  split; [done|]. split; [|split; [|split; [|split]]].
  - unfold total_projects. symmetry. by eapply Forall2_length.
  - unfold total_budget. f_equal. apply same_record_column; [|done].
    by intros x y (_ & _ & _ & _ & -> & _).
  - unfold avg_progress.
    rewrite (same_record_column Taux_Avancement _ _
               ltac:(by intros x y (_ & _ & _ & _ & _ & _ & ->)) Hsame).
    done.
  - by apply same_record_budget_by_province.
  - by apply same_record_status_distribution.
Qed.

Lemma column_zip_with_set {V A} (f : V → IndexedRow → IndexedRow)
    (g : Row → option A) (h : V → A) (values : list V) df :
  (∀ v x, g (f v x).2 = Some (h v)) → length values = length df →
  column g (zip_with f values df) = Some ∘ h <$> values.
Proof.
  intros Hf. revert values. unfold column.
  induction df as [|x df IH]; intros [|v values] Hlen; simplify_eq/=; [done|].
  by rewrite Hf, IH.
Qed.

Lemma column_zip_with_keep {V A} (f : V → IndexedRow → IndexedRow)
    (g : Row → A) (values : list V) df :
  (∀ v x, g (f v x).2 = g x.2) → length values = length df →
  column g (zip_with f values df) = column g df.
Proof.
  intros Hf. revert values. unfold column.
  induction df as [|x df IH]; intros [|v values] Hlen; simplify_eq/=; [done|].
  by rewrite Hf, IH.
Qed.

(** X12. Geo-enrichment gives every row both coordinates and changes
    nothing else: labels, order and the six fields of each row stay; the
    latitude of row [k] is 31.62 plus the [k]-th draw scaled to
    [-0.5, 0.5], and its longitude is -8.00 plus draw number [N + k]
    scaled to [-0.8, 0.8], for a table of [N] rows.  The coordinates
    depend on the position of a row and on the size of the table, not on
    the project. *)
Theorem geo_enrich_columns L df :
  Forall2 same_record df (geo_enrich L df)
  ∧ column lat (geo_enrich L df)
    = (λ k, Some ((3162 # 100)
                  + (- (1 # 2) + ((1 # 2) - (- (1 # 2))) * random_sample L k))%Q)
        <$> seq 0 (length df)
  ∧ column lon (geo_enrich L df)
    = (λ k, Some (- (8 # 1)
                  + (- (8 # 10)
                     + ((8 # 10) - (- (8 # 10))) * random_sample L (length df + k)))%Q)
        <$> seq 0 (length df).
Proof.
  split; [apply geo_enrich_same_records|].
  unfold geo_enrich, uniform.
  set (lats := (λ u, (3162 # 100) + u)%Q <$> _).
  set (lons := (λ u, - (8 # 1) + u)%Q <$> _).
  assert (length lats = length df) as Hlats
    by (unfold lats; by rewrite !length_fmap, length_seq).
  assert (length lons = length df) as Hlons
    by (unfold lons; by rewrite !length_fmap, length_seq).
  assert (length lons = length (zip_with set_lat lats df)) as Hlons'
    by (rewrite length_zip_with; lia).
  split.
  - rewrite (column_zip_with_keep set_lon lat) by done.
    rewrite (column_zip_with_set set_lat lat id) by done.
    unfold lats. rewrite <-!list_fmap_compose. done.
  - rewrite (column_zip_with_set set_lon lon id) by done.
    unfold lons. rewrite <-!list_fmap_compose. done.
Qed.

End two_scripts.

(** ** The progress card *)

Section progress.

Local Open Scope list_scope.

Implicit Types (sub : DataFrame) (x : IndexedRow).




End progress.

(** ** The table of cells: missing columns, empty exports, derived columns *)

Section csv_edges.

Import Csv.
Local Open Scope list_scope.

Implicit Types (L : Library) (F G T : frame) (r : list cell)
  (names : list string).





Lemma hide_geo_snoc names r name (v : cell) :
  name ∈ geo_columns → length r = length names →
  hide_geo (names ++ [name]) (r ++ [v]) = hide_geo names r.
Proof.
  intros Hgeo Hlen. unfold hide_geo.
  rewrite zip_with_app by done. rewrite filter_app. simpl zip_with.
  rewrite filter_cons, decide_False by (simpl; tauto).
  rewrite filter_nil. by rewrite app_nil_r.
Qed.

(** Setting a derived column, over an old one or as a new one, changes
    nothing outside the derived columns. *)
Lemma set_geo_column name (values : list cell) F :
  name ∈ geo_columns →
  Forall (λ r, length r = length (columns F)) (rows F) →
  length values = length (rows F) →
  without_geo (set_column name values F) = without_geo F
  ∧ length (rows (set_column name values F)) = length (rows F)
  ∧ (∀ n, n ∈ columns (set_column name values F) ↔ n ∈ columns F ∨ n = name).
Proof.
  intros Hgeo Hrect Hlen.
  destruct (decide (name ∈ columns F)) as [Hin|Hout].
  - destruct (without_geo_set_column name values F Hgeo Hin Hlen)
      as (-> & -> & ->).
    split; [done|]. split; [done|]. intros n. split; [tauto|].
    by intros [?| ->].
  - unfold set_column.
    destruct (col_index name F) as [j|] eqn:Hj.
    { exfalso. apply Hout. apply col_index_Some in Hj.
      by eapply list_elem_of_lookup_2. }
    split; [|split].
    + unfold without_geo. simpl. f_equal.
      * rewrite filter_app, filter_cons, decide_False by tauto.
        by rewrite filter_nil, app_nil_r.
      * revert values Hlen Hrect. generalize (rows F) as rs.
        induction rs as [|r rs IH]; intros [|v values] Hlen Hrect;
          simplify_eq/=; [done|].
        apply Forall_cons in Hrect as [Hr Hrect].
        f_equal; [|by apply IH]. by apply hide_geo_snoc.
    + simpl. rewrite length_zip_with. lia.
    + intros n. simpl. rewrite elem_of_app, list_elem_of_singleton. done.
Qed.

(** X16. [load_data] answers whenever [read_csv] does, and what it
    returns is the table read with the two derived columns set: the same
    number of rows, every cell outside [lat] and [lon] as read, each column
    name once, and the columns of the file together with [lat] and [lon],
    also when the file had such columns already. *)
Theorem load_data_keeps_file L (bytes : string) :
  match read_csv L bytes with
  | None => Csv.load_data L bytes = None
  | Some F =>
      ∃ T, Csv.load_data L bytes = Some T
           ∧ without_geo T = without_geo F
           ∧ length (rows T) = length (rows F)
           ∧ NoDup (columns T)
           ∧ ∀ n, n ∈ columns T ↔ n ∈ columns F ∨ n ∈ geo_columns
  end.
Proof.
  destruct (read_csv L bytes) as [F|] eqn:Hread;
    [|unfold Csv.load_data; by rewrite Hread].
  destruct (Csv.load_data L bytes) as [T|] eqn:Hload;
    [|unfold Csv.load_data in Hload; rewrite Hread in Hload; done].
  exists T. split; [done|].
  pose proof (load_data_well_formed L bytes T Hload) as ([_ _ Hnodup _] & _ & _).
  unfold Csv.load_data in Hload. rewrite Hread in Hload.
  cbn [mbind option_bind] in Hload. unfold uniform in Hload.
  injection Hload as <-.
  pose proof (read_csv_shape L bytes F Hread) as (Hnamed & HnodupF & Hrect).
  match goal with
  | |- without_geo (set_column "lon" ?v2 (set_column "lat" ?v1 F)) = _ ∧ _ =>
      set (lons := v2) in *; set (lats := v1) in *
  end.
  assert (length lats = length (rows F)) as Hl1.
  { unfold lats. by rewrite !length_fmap, length_seq. }
  destruct (set_geo_column "lat" lats F) as (E1 & R1 & C1);
    [by left|done|done|].
  destruct (set_column_shape "lat" lats F ltac:(done)
              (conj Hnamed (conj HnodupF Hrect))) as (_ & _ & Hrect1 & _).
  assert (length lons = length (rows (set_column "lat" lats F))) as Hl2.
  { unfold lons. by rewrite R1, !length_fmap, length_seq. }
  destruct (set_geo_column "lon" lons (set_column "lat" lats F))
    as (E2 & R2 & C2); [by right; left|done|done|].
  split; [by rewrite E2|]. split; [by rewrite R2|]. split; [done|].
  intros n. rewrite C2, C1. unfold geo_columns.
  rewrite !elem_of_cons, elem_of_nil. tauto.
Qed.

End csv_edges.

(** ** Row labels *)

Section labels.

Local Open Scope list_scope.

Implicit Types (L : Library) (T df sub a b : DataFrame) (x y : IndexedRow)
  (P S : list string).

Lemma sublist_index a b : a `sublist_of` b → index a `sublist_of` index b.
Proof.
  unfold index. induction 1; csimpl; [constructor|by constructor|by constructor].
Qed.

Lemma StronglySorted_sublist {A} (R : relation A) (l k : list A) :
  l `sublist_of` k → StronglySorted R k → StronglySorted R l.
Proof.
  induction 1 as [|c l k Hlk IH|c l k Hlk IH]; intros Hk; [done| |].
  - apply StronglySorted_inv in Hk as [Hk Hc]. constructor; [by apply IH|].
    apply Forall_forall. intros d Hd.
    apply (proj1 (Forall_forall _ _) Hc). by eapply elem_of_sublist.
  - apply StronglySorted_inv in Hk as [Hk _]. by apply IH.
Qed.

Lemma StronglySorted_seq (start n : nat) : StronglySorted lt (seq start n).
Proof.
  revert start. induction n as [|n IH]; intros start; simpl; constructor; [done|].
  apply Forall_forall. intros k Hk. apply elem_of_seq in Hk. lia.
Qed.

Lemma same_record_index a b : Forall2 same_record a b → index b = index a.
Proof.
  unfold index. induction 1 as [|x y a b Hxy _ IH]; [done|].
  csimpl. rewrite IH. by destruct Hxy as [-> _].
Qed.

(** X17. The table shown keeps the row numbers of the file: a row
    numbered [i] is on the page exactly when record [i] of the file has its
    province and its sector selected, and it is that record; the numbers
    shown increase down the page; and the first script, which adds two
    columns, shows the same numbers as the second. *)
Theorem filtered_labels L (rs : list Row) P S :
  (∀ i r, (i, r) ∈ df_filtered (frame_of_records rs) P S
          ↔ rs !! i = Some r ∧ Province r ∈ P ∧ Secteur r ∈ S)
  ∧ StronglySorted lt (index (df_filtered (frame_of_records rs) P S))
  ∧ index (df_filtered (geo_enrich L (frame_of_records rs)) P S)
    = index (df_filtered (frame_of_records rs) P S).
Proof.
  split; [|split].
  - intros i r. rewrite elem_of_df_filtered. unfold frame_of_records.
    rewrite elem_of_lookup_imap. simpl. split.
    + intros ((j & r' & [= -> ->] & Hj) & HP & HS). done.
    + intros (Hi & HP & HS). split; [|done]. by exists i, r.
  - apply (StronglySorted_sublist lt _ (index (frame_of_records rs))).
    + apply sublist_index, df_filtered_sublist.
    + rewrite index_frame_of_records. apply StronglySorted_seq.
  - apply same_record_index, same_record_df_filtered, geo_enrich_same_records.
Qed.

End labels.
